(** * GiftLib API client ([src/lib/api.ts]): request, response and error pipeline

    A shallow embedding of the HTTP client facade: the configured transport
    [api] with its two interceptors, the bare transport [axios], the helpers
    [handleResponse] and [handleError], the fifteen endpoint wrappers of
    [apiService] and the three credential-store accessors.

    Effects are explicit.  The browser's [localStorage], the list of toast
    notifications shown so far and the list of requests put on the wire form
    the [World]; a computation either completes normally or throws (a rejected
    promise and a thrown exception are the same thing for an [await] inside
    [try]/[catch]).  The network is a function from the request that is sent
    to the way it settles. *)

From Stdlib Require Import ZArith.
From stdpp Require Import base strings list gmap pretty.

Local Set Warnings "-register-all".
Local Open Scope Z_scope.
Local Open Scope string_scope.
Local Open Scope list_scope.

(** ** JavaScript values *)

(** Values that can be decoded from a JSON body or passed as a JSON payload.
    [JNum] carries integer-valued numbers (of magnitude below 10^21, where
    JavaScript prints them in plain decimal).  An object is the list of its
    own enumerable properties; each name is bound once and a read returns the
    first binding. *)
Inductive JsValue : Type :=
| JUndefined
| JNull
| JBool (b : bool)
| JNum (n : Z)
| JStr (s : string)
| JArr (items : list JsValue)
| JObj (props : list (string * JsValue)).

(** Truthiness of a string: every string but the empty one. *)
Definition truthyStr (s : string) : bool :=
  match s with
  | EmptyString => false
  | String _ _ => true
  end.

(** ToBoolean, as applied by [if (v)]. *)
Definition truthy (v : JsValue) : bool :=
  match v with
  | JUndefined | JNull => false
  | JBool b => b
  | JNum n => negb (Z.eqb n 0)
  | JStr s => truthyStr s
  | JArr _ | JObj _ => true
  end.

(** ToString, as applied by [new Error(v)] and [FormData.append(k, v)].
    An array prints its elements separated by commas, [null] and [undefined]
    elements as nothing; a plain object prints as [[object Object]]. *)
Fixpoint toString (v : JsValue) : string :=
  match v with
  | JUndefined => "undefined"
  | JNull => "null"
  | JBool true => "true"
  | JBool false => "false"
  | JNum n => pretty n
  | JStr s => s
  | JArr items =>
      (fix join (l : list JsValue) : string :=
         match l with
         | [] => ""
         | x :: rest =>
             let sx := match x with
                       | JUndefined | JNull => ""
                       | _ => toString x
                       end in
             match rest with
             | [] => sx
             | _ :: _ => sx +:+ "," +:+ join rest
             end
         end) items
  | JObj _ => "[object Object]"
  end.

(** Reading a property of an object from its list of properties. *)
Fixpoint lookupProp (props : list (string * JsValue)) (k : string) : JsValue :=
  match props with
  | [] => JUndefined
  | (k', v) :: rest => if String.eqb k' k then v else lookupProp rest k
  end.

(** [v?.k] for the property names read in this file ([detail], [message]):
    [undefined] on [null] and [undefined], the property of an object, and
    [undefined] on primitives and arrays, which have no such property. *)
Definition optProp (v : JsValue) (k : string) : JsValue :=
  match v with
  | JObj props => lookupProp props k
  | _ => JUndefined
  end.

(** ** Requests, responses and errors *)

Inductive Method : Type := GET | POST | PUT.

(** A [File] picked by the user: a name and its content. *)
Record File : Type := mkFile { file_name : string; file_content : string }.

(** An entry value of a [FormData]: text, or a file. *)
Inductive FormValue : Type :=
| FText (s : string)
| FFile (f : File).

(** A [FormData] keeps its entries in the order of the [append] calls and may
    repeat a name. *)
Definition FormData : Type := list (string * FormValue).

Definition formData_append (fd : FormData) (name : string) (value : FormValue)
  : FormData :=
  fd ++ [(name, value)].

Inductive Body : Type :=
| NoBody
| JsonBody (v : JsValue)
| FormBody (fd : FormData).

(** The request configuration handed to the interceptors and to the adapter.
    [headers] holds the headers set by this file (the transport's own default
    headers are left out); it is optional because the request interceptor
    tests it. *)
Record Config : Type := mkConfig {
  method : Method;
  url : string;
  baseURL : option string;
  timeout : Z;
  headers : option (gmap string string);
  params : list (string * JsValue);
  body : Body;
  responseType : option string
}.

Record AxiosResponse : Type := mkResponse {
  status : Z;
  data : JsValue
}.

(** What a [catch] clause receives: an [AxiosError], or a plain [Error], which
    has neither [code] nor [response]. *)
Record JsError : Type := mkJsError {
  code : option string;
  message : string;
  response : option AxiosResponse
}.

(** [new Error(v)]. *)
Definition newError (v : JsValue) : JsError :=
  {| code := None;
     message := match v with JUndefined => "" | _ => toString v end;
     response := None |}.

(** How the adapter settles a request. *)
Inductive Outcome : Type :=
| Resolved (r : AxiosResponse)
| Rejected (e : JsError).

(** ** The world and the computations on it *)

Record World : Type := mkWorld {
  localStorage : gmap string string;
  toasts : list string;
  wire : list Config
}.

Inductive Completion (A : Type) : Type :=
| Normal (a : A)
| Throw (e : JsError).
Arguments Normal {A} a.
Arguments Throw {A} e.

Definition M (A : Type) : Type := World -> Completion A * World.

Definition ret {A} (a : A) : M A := fun w => (Normal a, w).

Definition bind {A B} (m : M A) (k : A -> M B) : M B :=
  fun w =>
    match m w with
    | (Normal a, w') => k a w'
    | (Throw e, w') => (Throw e, w')
    end.

Definition throw {A} (e : JsError) : M A := fun w => (Throw e, w).

(** [try { m } catch (error) { h error }]. *)
Definition tryCatch {A} (m : M A) (h : JsError -> M A) : M A :=
  fun w =>
    match m w with
    | (Normal a, w') => (Normal a, w')
    | (Throw e, w') => h e w'
    end.

Notation "'let!' x ':=' m 'in' k" := (bind m (fun x => k))
  (at level 10, x name, m at level 100, k at level 200).
Notation "m ';;' k" := (bind m (fun _ => k))
  (at level 100, k at level 200, right associativity).

Definition eval {A} (m : M A) (w : World) : Completion A := fst (m w).
Definition exec {A} (m : M A) (w : World) : World := snd (m w).

(** [localStorage.getItem], [setItem] and [removeItem]. *)
Definition getItem (k : string) : M (option string) :=
  fun w => (Normal (localStorage w !! k), w).

Definition setItem (k v : string) : M unit :=
  fun w => (Normal tt,
            {| localStorage := <[k := v]> (localStorage w);
               toasts := toasts w; wire := wire w |}).

Definition removeItem (k : string) : M unit :=
  fun w => (Normal tt,
            {| localStorage := delete k (localStorage w);
               toasts := toasts w; wire := wire w |}).

(** [toast.error(msg)]: one more notification on the screen. *)
Definition toast_error (msg : string) : M unit :=
  fun w => (Normal tt,
            {| localStorage := localStorage w;
               toasts := toasts w ++ [msg]; wire := wire w |}).

(** ** Constants of the file *)

Definition API_BASE_URL : string := "https://giftlib-backend.onrender.com".

(** The [localStorage] key under which the credential is kept. *)
Definition API_KEY_ITEM : string := "giftlib_api_key".

Definition API_KEY_HEADER : string := "X-API-Key".

Definition MSG_TIMEOUT : string :=
  "⏰ Request timed out. The server may be overloaded or unresponsive.".
Definition MSG_NETWORK : string :=
  "🔌 Connection failed. Please check if the backend server is running.".
Definition MSG_UNAUTHORIZED : string :=
  "🔐 Unauthorized. Please check your API key.".
Definition MSG_FORBIDDEN : string :=
  "🚫 Forbidden. You don't have permission to access this resource.".
Definition MSG_SERVER : string :=
  "🔥 Server error. Please try again later.".
Definition MSG_UNEXPECTED : string := "An unexpected error occurred".

(** ** Payload types *)

(** Modelled from the spec: the declaration of [CreateUserForm] in [@/types]
    is not part of the sources; section 6 gives the create-user form as
    multipart(email, full_name, company_name?), the last field optional. *)
Record CreateUserForm : Type := mkCreateUserForm {
  email : string;
  full_name : string;
  company_name : option string
}.

(** Modelled from the spec: the declaration of [EmailConfig] in [@/types] is
    not part of the sources; section 6 gives the email-config form as
    multipart(resend_api_key, from_email, sending_domain?), the last field
    optional. *)
Record EmailConfig : Type := mkEmailConfig {
  resend_api_key : string;
  from_email : string;
  sending_domain : option string
}.

(** The per-call options a wrapper passes next to the URL and the data. *)
Record CallOptions : Type := mkCallOptions {
  opt_headers : gmap string string;
  opt_params : list (string * JsValue);
  opt_responseType : option string
}.

Definition noOptions : CallOptions :=
  {| opt_headers := ∅; opt_params := []; opt_responseType := None |}.

(** ** Helpers *)

(** [handleResponse]: the decoded body of the response. *)
Definition handleResponse (response : AxiosResponse) : JsValue :=
  data response.

(** [error.response?.data?.k]. *)
Definition responseField (error : JsError) (k : string) : JsValue :=
  match response error with
  | Some r => optProp (data r) k
  | None => JUndefined
  end.

(** [handleError]: never returns; throws a fresh [Error] whose message is the
    first truthy one of the server's [detail], the server's [message] and the
    error's own message, or else a fixed text. *)
Definition handleError {A} (error : JsError) : M A :=
  if truthy (responseField error "detail") then
    throw (newError (responseField error "detail"))
  else if truthy (responseField error "message") then
    throw (newError (responseField error "message"))
  else if truthyStr (message error) then
    throw (newError (JStr (message error)))
  else
    throw (newError (JStr MSG_UNEXPECTED)).

(** ** The interceptors of the configured transport *)

(** What the body of the request interceptor does to the configuration once
    the credential is read: [if (apiKey && config.headers)] set the header. *)
Definition withApiKey (apiKey : option string) (config : Config) : Config :=
  match apiKey, headers config with
  | Some k, Some h =>
      if truthyStr k then
        {| method := method config; url := url config;
           baseURL := baseURL config; timeout := timeout config;
           headers := Some (<[API_KEY_HEADER := k]> h);
           params := params config; body := body config;
           responseType := responseType config |}
      else config
  | _, _ => config
  end.

(** The request interceptor: reads the credential from the store at every
    request. *)
Definition requestInterceptor (config : Config) : M Config :=
  let! apiKey := getItem API_KEY_ITEM in
  ret (withApiKey apiKey config).

(** [error.code === c]. *)
Definition codeIs (error : JsError) (c : string) : bool :=
  match code error with
  | Some c' => String.eqb c' c
  | None => false
  end.

(** [error.response?.status === n]. *)
Definition statusIs (error : JsError) (n : Z) : bool :=
  match response error with
  | Some r => Z.eqb (status r) n
  | None => false
  end.

(** [error.response?.status >= n]; false when there is no response. *)
Definition statusAtLeast (error : JsError) (n : Z) : bool :=
  match response error with
  | Some r => Z.leb n (status r)
  | None => false
  end.

(** The rejection handler of the response interceptor: at most one toast,
    then the same error is rejected again. *)
Definition responseErrorInterceptor {A} (error : JsError) : M A :=
  (if codeIs error "ECONNABORTED" then toast_error MSG_TIMEOUT
   else if codeIs error "ERR_NETWORK" then toast_error MSG_NETWORK
   else if statusIs error 401 then toast_error MSG_UNAUTHORIZED
   else if statusIs error 403 then toast_error MSG_FORBIDDEN
   else if statusAtLeast error 500 then toast_error MSG_SERVER
   else ret tt) ;;
  throw error.

(** The fulfilment handler of the response interceptor. *)
Definition responseInterceptor (response : AxiosResponse) : M AxiosResponse :=
  ret response.

(** ** The credential store accessors *)

Definition setApiKey (apiKey : string) : M unit :=
  setItem API_KEY_ITEM apiKey.

Definition getApiKey : M (option string) :=
  getItem API_KEY_ITEM.

Definition removeApiKey : M unit :=
  removeItem API_KEY_ITEM.

(** A call of one of the two wrappers that use the bare [axios]. *)
Inductive BareCall : Type :=
| HealthCheck
| CreateUser (userData : CreateUserForm).

(** A call of one of the thirteen wrappers that use [api]. *)
Inductive ApiCall : Type :=
| GetUserProfile
| InitiateGift (giftData : JsValue)
| BulkInitiateGifts (bulkData : JsValue)
| GetAllGifts (limit : option Z)
| GetCampaignGifts (campaignId : string)
| UpdateGiftStatus (statusData : JsValue)
| GetGiftStatus (giftId : string)
| VerifyGift (giftId : string) (verified : bool)
| DownloadExcelTemplate
| UploadExcelFile (file : File) (campaignId : string)
| GetEmailConfig
| UpdateEmailConfig (config : EmailConfig)
| TestEmailConfig (testData : list (string * JsValue)).

Inductive Call : Type :=
| ViaAxios (c : BareCall)
| ViaApi (c : ApiCall).

(** ** The two transports and the endpoint wrappers *)

Section Client.

(** The adapter together with the backend: how the request that is sent
    settles.  A response whose status the transport does not accept comes
    back as a rejection that carries the response. *)
Variable net : Config -> Outcome.

(** Putting a request on the wire. *)
Definition send (config : Config) : M AxiosResponse :=
  fun w =>
    let w' := {| localStorage := localStorage w; toasts := toasts w;
                 wire := wire w ++ [config] |} in
    match net config with
    | Resolved r => (Normal r, w')
    | Rejected e => (Throw e, w')
    end.

(** A request through [api]: the request interceptor, the adapter, then the
    response interceptor, whose rejection handler sees every failure of
    the steps before it. *)
Definition api_request (config : Config) : M AxiosResponse :=
  tryCatch
    (let! config' := requestInterceptor config in
     let! response := send config' in
     responseInterceptor response)
    responseErrorInterceptor.

(** The configuration [api] builds for a call: the defaults given to
    [axios.create] and the options of the call.  The transport always hands
    its interceptors a configuration with headers, those of the call or
    none. *)
Definition apiConfig (m : Method) (u : string) (d : Body) (o : CallOptions)
  : Config :=
  {| method := m; url := u; baseURL := Some API_BASE_URL; timeout := 30000;
     headers := Some (opt_headers o); params := opt_params o; body := d;
     responseType := opt_responseType o |}.

Definition api_get (u : string) (o : CallOptions) : M AxiosResponse :=
  api_request (apiConfig GET u NoBody o).
Definition api_post (u : string) (d : Body) (o : CallOptions)
  : M AxiosResponse :=
  api_request (apiConfig POST u d o).
Definition api_put (u : string) (d : Body) (o : CallOptions)
  : M AxiosResponse :=
  api_request (apiConfig PUT u d o).

(** The bare [axios]: no base URL, no timeout, and no interceptor is
    installed on it. *)
Definition axiosConfig (m : Method) (u : string) (d : Body) : Config :=
  {| method := m; url := u; baseURL := None; timeout := 0;
     headers := Some ∅; params := []; body := d; responseType := None |}.

Definition axios_get (u : string) : M AxiosResponse :=
  send (axiosConfig GET u NoBody).
Definition axios_post (u : string) (d : Body) : M AxiosResponse :=
  send (axiosConfig POST u d).

Definition healthCheck : M JsValue :=
  tryCatch
    (let! response := axios_get (API_BASE_URL +:+ "/") in
     ret (handleResponse response))
    handleError.

Definition createUser (userData : CreateUserForm) : M JsValue :=
  tryCatch
    (let formData : FormData := [] in
     let formData := formData_append formData "email" (FText (email userData)) in
     let formData :=
       formData_append formData "full_name" (FText (full_name userData)) in
     let formData :=
       match company_name userData with
       | Some c =>
           if truthyStr c then formData_append formData "company_name" (FText c)
           else formData
       | None => formData
       end in
     let! response :=
       axios_post (API_BASE_URL +:+ "/api/users") (FormBody formData) in
     ret (handleResponse response))
    handleError.

Definition getUserProfile : M JsValue :=
  tryCatch
    (let! response := api_get "/api/user/profile" noOptions in
     ret (handleResponse response))
    handleError.

Definition initiateGift (giftData : JsValue) : M JsValue :=
  tryCatch
    (let! response :=
       api_post "/api/initiate-gift" (JsonBody giftData) noOptions in
     ret (handleResponse response))
    handleError.

Definition bulkInitiateGifts (bulkData : JsValue) : M JsValue :=
  tryCatch
    (let! response :=
       api_post "/api/bulk-initiate-gifts" (JsonBody bulkData) noOptions in
     ret (handleResponse response))
    handleError.

(** [limit] is [None] when the argument is left out; it then is 1000. *)
Definition getAllGifts (limit : option Z) : M JsValue :=
  let limit := default 1000 limit in
  tryCatch
    (let! response :=
       api_get "/api/gifts"
         {| opt_headers := ∅; opt_params := [("limit", JNum limit)];
            opt_responseType := None |} in
     ret (handleResponse response))
    handleError.

Definition getCampaignGifts (campaignId : string) : M JsValue :=
  tryCatch
    (let! response :=
       api_get ("/api/campaign-gifts/" +:+ campaignId) noOptions in
     ret (handleResponse response))
    handleError.

Definition updateGiftStatus (statusData : JsValue) : M JsValue :=
  tryCatch
    (let! response :=
       api_put "/api/gift-status" (JsonBody statusData) noOptions in
     ret (handleResponse response))
    handleError.

Definition getGiftStatus (giftId : string) : M JsValue :=
  tryCatch
    (let! response := api_get ("/api/gift-status/" +:+ giftId) noOptions in
     ret (handleResponse response))
    handleError.

Definition verifyGift (giftId : string) (verified : bool) : M JsValue :=
  tryCatch
    (let! response :=
       api_post "/api/verify-gift"
         (JsonBody (JObj [("giftId", JStr giftId); ("verified", JBool verified)]))
         noOptions in
     ret (handleResponse response))
    handleError.

Definition downloadExcelTemplate : M JsValue :=
  tryCatch
    (let! response :=
       api_get "/api/download-excel-template"
         {| opt_headers := ∅; opt_params := [];
            opt_responseType := Some "blob" |} in
     ret (data response))
    handleError.

Definition uploadExcelFile (file : File) (campaignId : string) : M JsValue :=
  tryCatch
    (let formData : FormData := [] in
     let formData := formData_append formData "file" (FFile file) in
     let formData := formData_append formData "campaign_id" (FText campaignId) in
     let! response :=
       api_post "/api/upload-excel" (FormBody formData)
         {| opt_headers := {[ "Content-Type" := "multipart/form-data" ]};
            opt_params := []; opt_responseType := None |} in
     ret (handleResponse response))
    handleError.

Definition getEmailConfig : M JsValue :=
  tryCatch
    (let! response := api_get "/api/email-config" noOptions in
     ret (handleResponse response))
    handleError.

Definition updateEmailConfig (config : EmailConfig) : M JsValue :=
  tryCatch
    (let formData : FormData := [] in
     let formData :=
       formData_append formData "resend_api_key" (FText (resend_api_key config)) in
     let formData :=
       formData_append formData "from_email" (FText (from_email config)) in
     let formData :=
       match sending_domain config with
       | Some d =>
           if truthyStr d then formData_append formData "sending_domain" (FText d)
           else formData
       | None => formData
       end in
     let! response := api_post "/api/email-config" (FormBody formData) noOptions in
     ret (handleResponse response))
    handleError.

(** [testData] is an object, given by its properties in the order of
    [Object.keys]; every property that is neither [null] nor [undefined] is
    appended as text. *)
Definition testEmailConfig (testData : list (string * JsValue)) : M JsValue :=
  tryCatch
    (let formData : FormData :=
       fold_left
         (fun fd key =>
            match lookupProp testData key with
            | JNull | JUndefined => fd
            | v => formData_append fd key (FText (toString v))
            end)
         (map fst testData) [] in
     let! response :=
       api_post "/api/email-config/test" (FormBody formData) noOptions in
     ret (handleResponse response))
    handleError.

(** ** The endpoint wrappers as one family *)

Definition runBare (c : BareCall) : M JsValue :=
  match c with
  | HealthCheck => healthCheck
  | CreateUser userData => createUser userData
  end.

Definition runApi (c : ApiCall) : M JsValue :=
  match c with
  | GetUserProfile => getUserProfile
  | InitiateGift giftData => initiateGift giftData
  | BulkInitiateGifts bulkData => bulkInitiateGifts bulkData
  | GetAllGifts limit => getAllGifts limit
  | GetCampaignGifts campaignId => getCampaignGifts campaignId
  | UpdateGiftStatus statusData => updateGiftStatus statusData
  | GetGiftStatus giftId => getGiftStatus giftId
  | VerifyGift giftId verified => verifyGift giftId verified
  | DownloadExcelTemplate => downloadExcelTemplate
  | UploadExcelFile file campaignId => uploadExcelFile file campaignId
  | GetEmailConfig => getEmailConfig
  | UpdateEmailConfig config => updateEmailConfig config
  | TestEmailConfig testData => testEmailConfig testData
  end.

Definition run (c : Call) : M JsValue :=
  match c with
  | ViaAxios c => runBare c
  | ViaApi c => runApi c
  end.

End Client.

(** ** Observations used by the statements *)

(** The value of the [X-API-Key] header of a request, if it has one. *)
Definition apiKeyHeader (config : Config) : option string :=
  match headers config with
  | Some h => h !! API_KEY_HEADER
  | None => None
  end.

(** The stored credential. *)
Definition storedKey (w : World) : option string :=
  localStorage w !! API_KEY_ITEM.

(** The stored credential when it is not the empty string. *)
Definition usableKey (w : World) : option string :=
  match storedKey w with
  | Some k => if truthyStr k then Some k else None
  | None => None
  end.

(** The toasts the response interceptor shows for an error. *)
Definition noticeFor (error : JsError) : list string :=
  if codeIs error "ECONNABORTED" then [MSG_TIMEOUT]
  else if codeIs error "ERR_NETWORK" then [MSG_NETWORK]
  else if statusIs error 401 then [MSG_UNAUTHORIZED]
  else if statusIs error 403 then [MSG_FORBIDDEN]
  else if statusAtLeast error 500 then [MSG_SERVER]
  else [].

(** The world after [notes] are shown and [sent] is put on the wire. *)
Definition after (w : World) (notes : list string) (sent : list Config) : World :=
  {| localStorage := localStorage w;
     toasts := toasts w ++ notes;
     wire := wire w ++ sent |}.

(** ** The five categories of the interceptor, in the words of the design *)

Inductive Category : Type :=
| CatTimeout
| CatNetwork
| CatUnauthorized
| CatForbidden
| CatServerError.

(** Membership of a failure in a category: a client-side timeout, a
    connection failure, status 401, status 403, a status from 500 to 599. *)
Definition inCategory (c : Category) (error : JsError) : bool :=
  match c with
  | CatTimeout => codeIs error "ECONNABORTED"
  | CatNetwork => codeIs error "ERR_NETWORK"
  | CatUnauthorized => statusIs error 401
  | CatForbidden => statusIs error 403
  | CatServerError =>
      match response error with
      | Some r => Z.leb 500 (status r) && Z.leb (status r) 599
      | None => false
      end
  end.

Definition priorityOrder : list Category :=
  [CatTimeout; CatNetwork; CatUnauthorized; CatForbidden; CatServerError].

(** The first category, in priority order, that the failure belongs to. *)
Definition classify (error : JsError) : option Category :=
  List.find (fun c => inCategory c error) priorityOrder.

Definition categoryMessage (c : Category) : string :=
  match c with
  | CatTimeout => MSG_TIMEOUT
  | CatNetwork => MSG_NETWORK
  | CatUnauthorized => MSG_UNAUTHORIZED
  | CatForbidden => MSG_FORBIDDEN
  | CatServerError => MSG_SERVER
  end.

(** ** The message of the normalized error, in the words of the design *)

(** The candidates in order of precedence: the server's [detail], the
    server's [message], the transport error's own message. *)
Definition messageCandidates (error : JsError) : list JsValue :=
  [responseField error "detail"; responseField error "message";
   JStr (message error)].

(** The first truthy candidate as a string, else the fixed text. *)
Definition surfacedMessage (error : JsError) : string :=
  match List.find truthy (messageCandidates error) with
  | Some v => toString v
  | None => MSG_UNEXPECTED
  end.

(** The normalized error: a fresh [Error] that carries a message only. *)
Definition normalizedError (msg : string) : JsError := newError (JStr msg).

(** How the transport reports a request that exceeded its time limit: the
    code [ECONNABORTED], and no response. *)
Definition isTimeoutFailure (error : JsError) : Prop :=
  code error = Some "ECONNABORTED" /\ response error = None.

(** A failure that is a response with status [n]: the error carries the
    response, and its code is neither the timeout nor the connection code. *)
Definition isStatusFailure (error : JsError) (n : Z) : Prop :=
  (exists r, response error = Some r /\ status r = n) /\
  code error <> Some "ECONNABORTED" /\ code error <> Some "ERR_NETWORK".

(** ** Three sentences of the specification, read to the letter *)

(** "While a credential is set the request carries it as [X-API-Key]; when
    unset, the header is absent": the header is what the store holds. *)
Definition header_mirrors_store : Prop :=
  forall (net : Config -> Outcome) (c : ApiCall) (w : World) (sent : Config),
    wire (exec (runApi net c) w) = wire w ++ [sent] ->
    apiKeyHeader sent = storedKey w.

(** A field of the server's answer is present when it is there with a value:
    neither [undefined] nor [null]. *)
Definition present (v : JsValue) : bool :=
  match v with
  | JUndefined | JNull => false
  | _ => true
  end.

(** "[detail] if present, else [message] if present, else the error's own
    message if present, else the fixed text"; an error's own message is
    present when it is not empty. *)
Definition presentMessage (error : JsError) : string :=
  if present (responseField error "detail") then
    toString (responseField error "detail")
  else if present (responseField error "message") then
    toString (responseField error "message")
  else if truthyStr (message error) then message error
  else MSG_UNEXPECTED.

Definition message_by_presence : Prop :=
  forall (net : Config -> Outcome) (c : Call) (w : World) (sent : Config)
         (error : JsError),
    wire (exec (run net c) w) = wire w ++ [sent] ->
    net sent = Rejected error ->
    eval (run net c) w = Throw (normalizedError (presentMessage error)).

(** "Attached to every request issued via the configured transport, not
    attached to the health check or user-creation requests even when a
    credential is stored". *)
Definition header_on_every_api_request : Prop :=
  (forall (net : Config -> Outcome) (c : ApiCall) (w : World) (sent : Config)
          (k : string),
      storedKey w = Some k ->
      wire (exec (runApi net c) w) = wire w ++ [sent] ->
      apiKeyHeader sent = Some k) /\
  (forall (net : Config -> Outcome) (c : BareCall) (w : World) (sent : Config),
      wire (exec (runBare net c) w) = wire w ++ [sent] ->
      apiKeyHeader sent = None).

(** ** Sample worlds, networks and failures *)

Definition freshWorld : World :=
  {| localStorage := ∅; toasts := []; wire := [] |}.

Definition worldWithKey (k : string) : World :=
  {| localStorage := {[ API_KEY_ITEM := k ]}; toasts := []; wire := [] |}.

Definition okNet : Config -> Outcome :=
  fun _ => Resolved {| status := 200; data := JObj [("ok", JBool true)] |}.

Definition failingNet (error : JsError) : Config -> Outcome :=
  fun _ => Rejected error.

Definition timeoutError : JsError :=
  {| code := Some "ECONNABORTED"; message := "timeout of 30000ms exceeded";
     response := None |}.

Definition statusError (n : Z) (d : JsValue) : JsError :=
  {| code := Some (if Z.ltb n 500 then "ERR_BAD_REQUEST" else "ERR_BAD_RESPONSE");
     message := "Request failed with status code " +:+ pretty n;
     response := Some {| status := n; data := d |} |}.

Definition detailAndMessageError : JsError :=
  statusError 422 (JObj [("detail", JStr "A"); ("message", JStr "B")]).

Definition emptyDetailError : JsError :=
  statusError 400 (JObj [("detail", JStr ""); ("message", JStr "B")]).

Definition notFoundError : JsError :=
  statusError 404 (JObj [("detail", JStr "Gift not found")]).

Definition unauthorizedError : JsError :=
  statusError 401 (JObj [("detail", JStr "Invalid API key")]).

(** ** Observations for the rest of the file *)

(** How the transport reports that the backend could not be reached: the
    code [ERR_NETWORK], and no response. *)
Definition isNetworkFailure (error : JsError) : Prop :=
  code error = Some "ERR_NETWORK" /\ response error = None.

(** [v === null || v === undefined]. *)
Definition isNullish (v : JsValue) : bool :=
  match v with
  | JNull | JUndefined => true
  | _ => false
  end.

(** A field of the server's answer that is a string, [null] or missing. *)
Definition textOrMissing (v : JsValue) : Prop :=
  v = JUndefined \/ v = JNull \/ exists s, v = JStr s.

(** The method and the URL of each wrapper, as the wrapper writes them: a
    path for the wrappers on [api], the whole address for the two on the
    bare [axios]. *)
Definition route (c : Call) : Method * string :=
  match c with
  | ViaAxios HealthCheck => (GET, API_BASE_URL +:+ "/")
  | ViaAxios (CreateUser _) => (POST, API_BASE_URL +:+ "/api/users")
  | ViaApi GetUserProfile => (GET, "/api/user/profile")
  | ViaApi (InitiateGift _) => (POST, "/api/initiate-gift")
  | ViaApi (BulkInitiateGifts _) => (POST, "/api/bulk-initiate-gifts")
  | ViaApi (GetAllGifts _) => (GET, "/api/gifts")
  | ViaApi (GetCampaignGifts campaignId) =>
      (GET, "/api/campaign-gifts/" +:+ campaignId)
  | ViaApi (UpdateGiftStatus _) => (PUT, "/api/gift-status")
  | ViaApi (GetGiftStatus giftId) => (GET, "/api/gift-status/" +:+ giftId)
  | ViaApi (VerifyGift _ _) => (POST, "/api/verify-gift")
  | ViaApi DownloadExcelTemplate => (GET, "/api/download-excel-template")
  | ViaApi (UploadExcelFile _ _) => (POST, "/api/upload-excel")
  | ViaApi GetEmailConfig => (GET, "/api/email-config")
  | ViaApi (UpdateEmailConfig _) => (POST, "/api/email-config")
  | ViaApi (TestEmailConfig _) => (POST, "/api/email-config/test")
  end.

(** The entry [testEmailConfig] appends for a property. *)
Definition textEntry (p : string * JsValue) : string * FormValue :=
  (fst p, FText (toString (snd p))).

Definition networkError : JsError :=
  {| code := Some "ERR_NETWORK"; message := "Network Error"; response := None |}.

Definition sampleTestData : list (string * JsValue) :=
  [("to", JStr "ann@example.org"); ("subject", JStr ""); ("cc", JNull);
   ("retries", JNum 0); ("html", JBool false); ("reply_to", JUndefined)].

(** ** Basic facts about the helpers *)

Lemma truthyStr_true (s : string) : truthyStr s = true <-> s <> "".
Proof. destruct s; simpl; split; intros; congruence. Qed.

Lemma truthyStr_false (s : string) : truthyStr s = false <-> s = "".
Proof. destruct s; simpl; split; intros; congruence. Qed.

(** [new Error(v)] for a truthy [v] carries the string form of [v]. *)
Lemma newError_truthy (v : JsValue) :
  truthy v = true -> newError v = newError (JStr (toString v)).
Proof. destruct v; intros H; try discriminate H; reflexivity. Qed.

(** [handleError] throws the error whose message is [surfacedMessage], and
    touches nothing. *)
Lemma handleError_run (A : Type) (error : JsError) (w : World) :
  @handleError A error w = (Throw (newError (JStr (surfacedMessage error))), w).
Proof.
  unfold handleError, surfacedMessage, messageCandidates; simpl.
  destruct (truthy (responseField error "detail")) eqn:Hd.
  { unfold throw. by rewrite (newError_truthy _ Hd). }
  destruct (truthy (responseField error "message")) eqn:Hm.
  { unfold throw. by rewrite (newError_truthy _ Hm). }
  destruct (truthyStr (message error)) eqn:Ho; reflexivity.
Qed.

(** The rejection handler shows [noticeFor error] and throws [error]. *)
Lemma responseErrorInterceptor_run (A : Type) (error : JsError) (w : World) :
  @responseErrorInterceptor A error w = (Throw error, after w (noticeFor error) []).
Proof.
  unfold responseErrorInterceptor, noticeFor, after, bind, throw.
  repeat match goal with
         | |- context [if ?b then _ else _] => destruct b
         end;
    unfold toast_error, ret; simpl; rewrite ?app_nil_r; try reflexivity.
  by destruct w.
Qed.

(** The request interceptor only adds or replaces the credential header. *)
Lemma apiKeyHeader_withApiKey (apiKey : option string) (config : Config) (h : gmap string string) :
  headers config = Some h ->
  h !! API_KEY_HEADER = None ->
  apiKeyHeader (withApiKey apiKey config) =
    match apiKey with
    | Some k => if truthyStr k then Some k else None
    | None => None
    end.
Proof.
  intros Hh Hnone. unfold withApiKey, apiKeyHeader. rewrite Hh.
  destruct apiKey as [k|]; [destruct (truthyStr k)|]; simpl; rewrite ?Hh; try done.
  by rewrite lookup_insert_eq.
Qed.

Section ClientFacts.

Variable net : Config -> Outcome.

(** One request through [api]: the credential is read from the store, the
    request is sent once, a failure is shown and thrown on unchanged. *)
Lemma api_request_run (config : Config) (w : World) :
  api_request net config w =
    let sent := withApiKey (storedKey w) config in
    match net sent with
    | Resolved r => (Normal r, after w [] [sent])
    | Rejected e => (Throw e, after w (noticeFor e) [sent])
    end.
Proof.
  unfold api_request, tryCatch, requestInterceptor, bind, getItem, ret, send,
    responseInterceptor, storedKey; simpl.
  destruct (net _) as [r|e]; simpl.
  - unfold after; simpl. by rewrite app_nil_r.
  - rewrite responseErrorInterceptor_run. unfold after; simpl.
    by rewrite app_nil_r.
Qed.

(** A wrapper around one request through [api]. *)
Lemma api_wrapper_run (config : Config) (w : World) :
  tryCatch (let! response := api_request net config in ret (handleResponse response))
           handleError w =
    let sent := withApiKey (storedKey w) config in
    match net sent with
    | Resolved r => (Normal (data r), after w [] [sent])
    | Rejected e =>
        (Throw (newError (JStr (surfacedMessage e))), after w (noticeFor e) [sent])
    end.
Proof.
  unfold tryCatch at 1, bind. rewrite api_request_run. simpl.
  destruct (net _) as [r|e]; simpl; [reflexivity|].
  by rewrite handleError_run.
Qed.

(** A wrapper around one request through the bare [axios]. *)
Lemma axios_wrapper_run (config : Config) (w : World) :
  tryCatch (let! response := send net config in ret (handleResponse response))
           handleError w =
    match net config with
    | Resolved r => (Normal (data r), after w [] [config])
    | Rejected e => (Throw (newError (JStr (surfacedMessage e))), after w [] [config])
    end.
Proof.
  unfold tryCatch, bind, send, ret, after; simpl.
  destruct (net _) as [r|e]; simpl; rewrite ?app_nil_r; [reflexivity|].
  rewrite handleError_run. by rewrite ?app_nil_r.
Qed.

(** Every wrapper on [api] is one request through [api] inside the same
    [try]/[catch]; the configuration it passes has headers, and no credential
    header among them. *)
Lemma runApi_shape (c : ApiCall) :
  exists (config : Config) (h : gmap string string),
    headers config = Some h /\ h !! API_KEY_HEADER = None /\
    forall w,
      runApi net c w =
        tryCatch (let! response := api_request net config in
                  ret (handleResponse response)) handleError w.
Proof.
  destruct c; simpl;
    unfold getUserProfile, initiateGift, bulkInitiateGifts, getAllGifts,
      getCampaignGifts, updateGiftStatus, getGiftStatus, verifyGift,
      downloadExcelTemplate, uploadExcelFile, getEmailConfig,
      updateEmailConfig, testEmailConfig, api_get, api_post, api_put;
    eexists (apiConfig _ _ _ _), _; simpl;
    (split; [reflexivity | split; [ | intros w; reflexivity]]);
    done.
Qed.

(** Every wrapper on the bare [axios] is one request inside the same
    [try]/[catch]; its configuration has no credential header. *)
Lemma runBare_shape (c : BareCall) :
  exists config : Config,
    apiKeyHeader config = None /\
    forall w,
      runBare net c w =
        tryCatch (let! response := send net config in
                  ret (handleResponse response)) handleError w.
Proof.
  destruct c; simpl; unfold healthCheck, createUser, axios_get, axios_post;
    eexists (axiosConfig _ _ _); (split; [done | intros w; reflexivity]).
Qed.

(** What a call through [api] does: one request is sent, carrying the stored
    credential when that is not empty; a response is unwrapped, a failure is
    shown as [noticeFor] says and raised as the normalized error. *)
Lemma runApi_spec (c : ApiCall) (w : World) :
  exists sent : Config,
    apiKeyHeader sent = usableKey w /\
    runApi net c w =
      match net sent with
      | Resolved r => (Normal (data r), after w [] [sent])
      | Rejected e =>
          (Throw (newError (JStr (surfacedMessage e))),
           after w (noticeFor e) [sent])
      end.
Proof.
  destruct (runApi_shape c) as (config & h & Hh & Hnone & Hrun).
  exists (withApiKey (storedKey w) config). split.
  - by rewrite (apiKeyHeader_withApiKey _ _ h Hh Hnone).
  - rewrite Hrun. apply api_wrapper_run.
Qed.

(** What a call through the bare [axios] does: one request is sent, without
    the credential header; nothing is shown. *)
Lemma runBare_spec (c : BareCall) (w : World) :
  exists sent : Config,
    apiKeyHeader sent = None /\
    runBare net c w =
      match net sent with
      | Resolved r => (Normal (data r), after w [] [sent])
      | Rejected e =>
          (Throw (newError (JStr (surfacedMessage e))), after w [] [sent])
      end.
Proof.
  destruct (runBare_shape c) as (config & Hnone & Hrun).
  exists config. split; [done|]. rewrite Hrun. apply axios_wrapper_run.
Qed.

(** The request a call puts on the wire is determined by the wire. *)
Lemma sent_unique (w : World) (l : list Config) (a b : Config) :
  l = wire w ++ [a] -> l = wire w ++ [b] -> a = b.
Proof.
  intros -> H. apply app_inv_head in H. congruence.
Qed.

End ClientFacts.

(** ** Failed calls *)

(** A call through [api] whose request is rejected: the failure is shown as
    [noticeFor] says, and the normalized error is raised. *)
Lemma runApi_failure (net : Config -> Outcome) (c : ApiCall) (w : World)
    (sent : Config) (error : JsError) :
  wire (exec (runApi net c) w) = wire w ++ [sent] ->
  net sent = Rejected error ->
  runApi net c w =
    (Throw (normalizedError (surfacedMessage error)),
     after w (noticeFor error) [sent]).
Proof.
  intros Hw Hnet.
  destruct (runApi_spec net c w) as (sent' & _ & Hrun).
  assert (sent = sent') as <-.
  { apply (sent_unique w _ _ _ Hw). unfold exec. rewrite Hrun.
    by destruct (net sent'). }
  by rewrite Hrun, Hnet.
Qed.

(** A call through the bare [axios] whose request is rejected: nothing is
    shown, and the normalized error is raised. *)
Lemma runBare_failure (net : Config -> Outcome) (c : BareCall) (w : World)
    (sent : Config) (error : JsError) :
  wire (exec (runBare net c) w) = wire w ++ [sent] ->
  net sent = Rejected error ->
  runBare net c w =
    (Throw (normalizedError (surfacedMessage error)), after w [] [sent]).
Proof.
  intros Hw Hnet.
  destruct (runBare_spec net c w) as (sent' & _ & Hrun).
  assert (sent = sent') as <-.
  { apply (sent_unique w _ _ _ Hw). unfold exec. rewrite Hrun.
    by destruct (net sent'). }
  by rewrite Hrun, Hnet.
Qed.

(** A timeout is shown as the timeout toast. *)
Lemma noticeFor_timeout (error : JsError) :
  isTimeoutFailure error -> noticeFor error = [MSG_TIMEOUT].
Proof.
  intros [Hc _]. unfold noticeFor, codeIs. by rewrite Hc.
Qed.

(** A timeout has no answer of the server to take a message from. *)
Lemma surfacedMessage_no_response (error : JsError) :
  response error = None ->
  surfacedMessage error =
    if truthyStr (message error) then message error else MSG_UNEXPECTED.
Proof.
  intros Hr. unfold surfacedMessage, messageCandidates, responseField.
  rewrite Hr. simpl. by destruct (truthyStr (message error)).
Qed.

(** A status from 400 to 499 other than 401 and 403 is not shown. *)
Lemma noticeFor_other_4xx (error : JsError) (n : Z) :
  isStatusFailure error n ->
  400 <= n <= 499 -> n <> 401 -> n <> 403 ->
  noticeFor error = [].
Proof.
  intros [(r & Hr & Hn) [Ht Hnet]] Hrange H401 H403.
  unfold noticeFor, codeIs, statusIs, statusAtLeast. rewrite Hr, Hn.
  destruct (code error) as [c|].
  - destruct (String.eqb_spec c "ECONNABORTED") as [->|_]; [done|].
    destruct (String.eqb_spec c "ERR_NETWORK") as [->|_]; [done|].
    destruct (Z.eqb_spec n 401); [done|].
    destruct (Z.eqb_spec n 403); [done|].
    destruct (Z.leb_spec 500 n); [lia|done].
  - destruct (Z.eqb_spec n 401); [done|].
    destruct (Z.eqb_spec n 403); [done|].
    destruct (Z.leb_spec 500 n); [lia|done].
Qed.

(** ** The two forms with an optional field *)

(** The request interceptor leaves the body of the request alone. *)
Lemma body_withApiKey (apiKey : option string) (config : Config) :
  body (withApiKey apiKey config) = body config.
Proof.
  unfold withApiKey.
  destruct apiKey as [k|], (headers config); try reflexivity.
  by destruct (truthyStr k).
Qed.

(** The one request of [createUser] and the form in it. *)
Lemma createUser_sends (net : Config -> Outcome) (userData : CreateUserForm)
    (w : World) :
  exists (sent : Config) (fd : FormData),
    wire (exec (createUser net userData) w) = wire w ++ [sent] /\
    body sent = FormBody fd /\
    fd = [("email", FText (email userData));
          ("full_name", FText (full_name userData))] ++
         match company_name userData with
         | Some c => if truthyStr c then [("company_name", FText c)] else []
         | None => []
         end.
Proof.
  eexists (axiosConfig POST _ (FormBody _)), _.
  split; [|split; [reflexivity|]].
  - unfold exec, createUser, axios_post. cbv zeta.
    rewrite axios_wrapper_run. by destruct (net _).
  - destruct (company_name userData) as [c|]; [destruct (truthyStr c)|];
      reflexivity.
Qed.

(** The one request of [updateEmailConfig] and the form in it. *)
Lemma updateEmailConfig_sends (net : Config -> Outcome) (config : EmailConfig)
    (w : World) :
  exists (sent : Config) (fd : FormData),
    wire (exec (updateEmailConfig net config) w) = wire w ++ [sent] /\
    body sent = FormBody fd /\
    fd = [("resend_api_key", FText (resend_api_key config));
          ("from_email", FText (from_email config))] ++
         match sending_domain config with
         | Some d => if truthyStr d then [("sending_domain", FText d)] else []
         | None => []
         end.
Proof.
  eexists (withApiKey (storedKey w) (apiConfig POST _ (FormBody _) noOptions)), _.
  split; [|split; [by rewrite body_withApiKey|]].
  - unfold exec, updateEmailConfig, api_post. cbv zeta.
    rewrite api_wrapper_run. simpl. by destruct (net _).
  - destruct (sending_domain config) as [d|]; [destruct (truthyStr d)|];
      reflexivity.
Qed.

(** ** The credential store *)

(** C8. Setting the credential and then getting it returns the same string;
    removing it and then getting it returns absence, whatever the store held
    before. *)
Theorem set_get_remove_get (s : string) (w : World) :
  eval getApiKey (exec (setApiKey s) w) = Normal (Some s) /\
  eval getApiKey (exec removeApiKey w) = Normal None.
Proof.
  unfold eval, exec, getApiKey, setApiKey, removeApiKey, getItem, setItem,
    removeItem; simpl.
  by rewrite lookup_insert_eq, lookup_delete_eq.
Qed.

(** ** The credential header *)

(** C1, as worded: fails when the stored credential is the empty string,
    which the request interceptor treats like no credential. *)
Lemma header_mirrors_store_fails : ~ header_mirrors_store.
Proof.
  intros H.
  specialize (H okNet GetUserProfile (worldWithKey "")
                (apiConfig GET "/api/user/profile" NoBody noOptions) eq_refl).
  vm_compute in H. discriminate H.
Qed.

(** C1, amended. Every call through the configured transport sends one
    request; when a non-empty credential is stored at that time the request
    carries [X-API-Key] with that value; when nothing is stored, or the
    empty string is, the request has no [X-API-Key] header. *)
Theorem api_request_header (net : Config -> Outcome) (c : ApiCall) (w : World) :
  exists sent : Config,
    wire (exec (runApi net c) w) = wire w ++ [sent] /\
    (forall k, storedKey w = Some k -> k <> "" -> apiKeyHeader sent = Some k) /\
    (storedKey w = None -> apiKeyHeader sent = None) /\
    (storedKey w = Some "" -> apiKeyHeader sent = None).
Proof.
  destruct (runApi_spec net c w) as (sent & Hhdr & Hrun).
  exists sent. split.
  - unfold exec. rewrite Hrun. by destruct (net sent).
  - rewrite Hhdr. unfold usableKey.
    split; [|split].
    + intros k -> Hk. apply truthyStr_true in Hk. by rewrite Hk.
    + by intros ->.
    + by intros ->.
Qed.

Lemma api_request_header_witness :
  exists sent : Config,
    wire (exec (runApi okNet (GetCampaignGifts "c1")) (worldWithKey "k-123"))
      = [sent] /\
    apiKeyHeader sent = Some "k-123".
Proof.
  destruct (api_request_header okNet (GetCampaignGifts "c1") (worldWithKey "k-123"))
    as (sent & Hw & Hk & _).
  exists sent. split; [exact Hw|].
  apply Hk; [reflexivity | discriminate].
Defined.

(** ** The response interceptor *)

(** C2. The rejection handler of the response interceptor raises the very
    error it was given, shows at most one notification and changes nothing
    else; when the failure falls in one of the five categories (timeout,
    connection failure, 401, 403, 5xx), the first of them in that order
    decides, and exactly its fixed message is shown. *)
Theorem response_interceptor_classifies (A : Type) (error : JsError) (w : World) :
  eval (@responseErrorInterceptor A error) w = Throw error /\
  exists notes : list string,
    exec (@responseErrorInterceptor A error) w = after w notes [] /\
    (length notes <= 1)%nat /\
    (forall c, classify error = Some c -> notes = [categoryMessage c]).
Proof.
  unfold eval, exec. rewrite responseErrorInterceptor_run. simpl.
  split; [reflexivity|]. exists (noticeFor error).
  split; [reflexivity|]. split.
  - unfold noticeFor.
    repeat match goal with
           | |- context [if ?b then _ else _] => destruct b
           end; simpl; lia.
  - unfold classify, priorityOrder, noticeFor. simpl.
    destruct (codeIs error "ECONNABORTED"); [by intros c [= <-]|].
    destruct (codeIs error "ERR_NETWORK"); [by intros c [= <-]|].
    destruct (statusIs error 401); [by intros c [= <-]|].
    destruct (statusIs error 403); [by intros c [= <-]|].
    unfold statusAtLeast.
    destruct (response error) as [r|]; [|by intros c].
    destruct (500 <=? status r)%Z; simpl; [|by intros c].
    destruct (status r <=? 599)%Z; simpl; [by intros c [= <-]|by intros c].
Qed.

Lemma response_interceptor_classifies_witness :
  eval (@responseErrorInterceptor AxiosResponse (statusError 503 JNull)) freshWorld
    = Throw (statusError 503 JNull) /\
  toasts (exec (@responseErrorInterceptor AxiosResponse (statusError 503 JNull))
            freshWorld) = [MSG_SERVER].
Proof.
  destruct (response_interceptor_classifies AxiosResponse (statusError 503 JNull)
              freshWorld) as (Hthrow & notes & Hexec & _ & Hcat).
  split; [exact Hthrow|].
  rewrite Hexec, (Hcat CatServerError eq_refl). reflexivity.
Defined.

(** ** The normalized error *)

(** C3, as worded: fails when the server's [detail] is present but empty;
    [handleError] then passes on to the server's [message]. *)
Lemma message_by_presence_fails : ~ message_by_presence.
Proof.
  intros H.
  specialize (H (failingNet emptyDetailError) (ViaApi GetUserProfile) freshWorld
                (apiConfig GET "/api/user/profile" NoBody noOptions)
                emptyDetailError eq_refl eq_refl).
  vm_compute in H. discriminate H.
Qed.

(** C3, amended. Whatever the wrapper and the failure, the error raised to
    the caller is a fresh error that carries a message only, chosen by this
    precedence: the server's [response.data.detail] if truthy (present and
    not empty), else the server's [response.data.message] if truthy, else the
    transport error's own message if not empty, else the fixed text.  In
    particular, with [detail] equal to "A" and [message] equal to "B" the
    message is "A". *)
Theorem wrapper_error_message (net : Config -> Outcome) (c : Call) (w : World)
    (sent : Config) (error : JsError) :
  wire (exec (run net c) w) = wire w ++ [sent] ->
  net sent = Rejected error ->
  eval (run net c) w = Throw (normalizedError (surfacedMessage error)) /\
  (responseField error "detail" = JStr "A" ->
   responseField error "message" = JStr "B" ->
   eval (run net c) w = Throw (normalizedError "A")).
Proof.
  intros Hw Hnet.
  assert (eval (run net c) w = Throw (normalizedError (surfacedMessage error)))
    as Heval.
  { unfold eval. destruct c as [c|c]; simpl in *.
    - by rewrite (runBare_failure net c w sent error Hw Hnet).
    - by rewrite (runApi_failure net c w sent error Hw Hnet). }
  split; [exact Heval|].
  intros Hd Hm. rewrite Heval.
  unfold surfacedMessage, messageCandidates. by rewrite Hd.
Qed.

Lemma wrapper_error_message_witness :
  eval (run (failingNet detailAndMessageError) (ViaApi (VerifyGift "g1" true)))
    freshWorld
    = Throw (normalizedError "A").
Proof.
  refine (proj2 (wrapper_error_message (failingNet detailAndMessageError)
                   (ViaApi (VerifyGift "g1" true)) freshWorld
                   (apiConfig POST "/api/verify-gift"
                      (JsonBody (JObj [("giftId", JStr "g1");
                                       ("verified", JBool true)]))
                      noOptions)
                   detailAndMessageError _ _) _ _); reflexivity.
Defined.

(** C4. When a request through the configured transport exceeds the time
    limit, exactly one notification, the timeout one, is shown, and the
    wrapper raises the normalized error whose message is the transport's
    timeout message, or the fixed fallback text when that is empty. *)
Theorem timeout_notifies_once (net : Config -> Outcome) (c : ApiCall) (w : World)
    (sent : Config) (error : JsError) :
  wire (exec (runApi net c) w) = wire w ++ [sent] ->
  net sent = Rejected error ->
  isTimeoutFailure error ->
  toasts (exec (runApi net c) w) = toasts w ++ [MSG_TIMEOUT] /\
  eval (runApi net c) w =
    Throw (normalizedError
             (if truthyStr (message error) then message error
              else MSG_UNEXPECTED)).
Proof.
  intros Hw Hnet Ht. unfold exec, eval.
  rewrite (runApi_failure net c w sent error Hw Hnet). simpl.
  rewrite (noticeFor_timeout error Ht).
  by rewrite (surfacedMessage_no_response error (proj2 Ht)).
Qed.

Lemma timeout_notifies_once_witness :
  toasts (exec (runApi (failingNet timeoutError) GetEmailConfig) freshWorld)
    = [MSG_TIMEOUT] /\
  eval (runApi (failingNet timeoutError) GetEmailConfig) freshWorld
    = Throw (normalizedError "timeout of 30000ms exceeded").
Proof.
  refine (timeout_notifies_once (failingNet timeoutError) GetEmailConfig freshWorld
            (apiConfig GET "/api/email-config" NoBody noOptions) timeoutError
            _ _ _); [reflexivity | reflexivity | split; reflexivity].
Defined.

(** C5. When a request through the configured transport fails with status
    404, or any status from 400 to 499 other than 401 and 403, the
    interceptor shows no notification, and the wrapper still raises the
    normalized error. *)
Theorem other_4xx_is_silent (net : Config -> Outcome) (c : ApiCall) (w : World)
    (sent : Config) (error : JsError) (n : Z) :
  wire (exec (runApi net c) w) = wire w ++ [sent] ->
  net sent = Rejected error ->
  isStatusFailure error n ->
  400 <= n <= 499 -> n <> 401 -> n <> 403 ->
  toasts (exec (runApi net c) w) = toasts w /\
  eval (runApi net c) w = Throw (normalizedError (surfacedMessage error)).
Proof.
  intros Hw Hnet Hs Hrange H401 H403. unfold exec, eval.
  rewrite (runApi_failure net c w sent error Hw Hnet). simpl.
  rewrite (noticeFor_other_4xx error n Hs Hrange H401 H403).
  by rewrite app_nil_r.
Qed.

Lemma other_4xx_is_silent_witness :
  toasts (exec (runApi (failingNet notFoundError) (GetGiftStatus "g9")) freshWorld)
    = [] /\
  eval (runApi (failingNet notFoundError) (GetGiftStatus "g9")) freshWorld
    = Throw (normalizedError "Gift not found").
Proof.
  refine (other_4xx_is_silent (failingNet notFoundError) (GetGiftStatus "g9")
            freshWorld
            (apiConfig GET "/api/gift-status/g9" NoBody noOptions)
            notFoundError 404
            _ _ _ _ _ _); try reflexivity; try lia.
  split; [by eexists | split; discriminate].
Defined.

(** ** The multipart forms *)

(** C6. [createUser] sends a form whose fields are named [email],
    [full_name] and [company_name], and [updateEmailConfig] one whose fields
    are named [resend_api_key], [from_email] and [sending_domain], in that
    order and with the values given; no other name occurs, and the optional
    third field is left out when it is not provided. *)
Theorem form_fields_named (net : Config -> Outcome) (w : World) :
  (forall userData : CreateUserForm,
     exists (sent : Config) (fd : FormData),
       wire (exec (createUser net userData) w) = wire w ++ [sent] /\
       body sent = FormBody fd /\
       (forall name, In name (map fst fd) ->
                     In name ["email"; "full_name"; "company_name"]) /\
       (company_name userData = None ->
        fd = [("email", FText (email userData));
              ("full_name", FText (full_name userData))]) /\
       (forall c, company_name userData = Some c -> c <> "" ->
        fd = [("email", FText (email userData));
              ("full_name", FText (full_name userData));
              ("company_name", FText c)])) /\
  (forall config : EmailConfig,
     exists (sent : Config) (fd : FormData),
       wire (exec (updateEmailConfig net config) w) = wire w ++ [sent] /\
       body sent = FormBody fd /\
       (forall name, In name (map fst fd) ->
                     In name ["resend_api_key"; "from_email"; "sending_domain"]) /\
       (sending_domain config = None ->
        fd = [("resend_api_key", FText (resend_api_key config));
              ("from_email", FText (from_email config))]) /\
       (forall d, sending_domain config = Some d -> d <> "" ->
        fd = [("resend_api_key", FText (resend_api_key config));
              ("from_email", FText (from_email config));
              ("sending_domain", FText d)])).
Proof.
  split.
  - intros userData.
    destruct (createUser_sends net userData w) as (sent & fd & Hw & Hb & ->).
    exists sent; eexists. split; [exact Hw|]. split; [exact Hb|].
    split; [|split].
    + destruct (company_name userData) as [c|]; [destruct (truthyStr c)|];
        simpl; intuition.
    + by intros ->.
    + intros c -> Hc. apply truthyStr_true in Hc. by rewrite Hc.
  - intros config.
    destruct (updateEmailConfig_sends net config w) as (sent & fd & Hw & Hb & ->).
    exists sent; eexists. split; [exact Hw|]. split; [exact Hb|].
    split; [|split].
    + destruct (sending_domain config) as [d|]; [destruct (truthyStr d)|];
        simpl; intuition.
    + by intros ->.
    + intros d -> Hd. apply truthyStr_true in Hd. by rewrite Hd.
Qed.

Lemma form_fields_named_witness :
  exists sent : Config,
    wire (exec (createUser okNet
                  {| email := "ann@example.org"; full_name := "Ann Lee";
                     company_name := Some "Acme" |}) freshWorld) = [sent] /\
    body sent = FormBody [("email", FText "ann@example.org");
                          ("full_name", FText "Ann Lee");
                          ("company_name", FText "Acme")].
Proof.
  destruct (proj1 (form_fields_named okNet freshWorld)
              {| email := "ann@example.org"; full_name := "Ann Lee";
                 company_name := Some "Acme" |})
    as (sent & fd & Hw & Hb & _ & _ & Hsome).
  exists sent. split; [exact Hw|].
  rewrite Hb. f_equal. apply Hsome; [reflexivity | discriminate].
Defined.

(** C10. [createUser] leaves out [company_name], and [updateEmailConfig]
    leaves out [sending_domain], both when the optional field is absent and
    when it is the empty string: the form then has the two required fields
    only. *)
Theorem empty_optional_field_omitted (net : Config -> Outcome) (w : World) :
  (forall userData : CreateUserForm,
     company_name userData = None \/ company_name userData = Some "" ->
     exists sent : Config,
       wire (exec (createUser net userData) w) = wire w ++ [sent] /\
       body sent = FormBody [("email", FText (email userData));
                             ("full_name", FText (full_name userData))]) /\
  (forall config : EmailConfig,
     sending_domain config = None \/ sending_domain config = Some "" ->
     exists sent : Config,
       wire (exec (updateEmailConfig net config) w) = wire w ++ [sent] /\
       body sent = FormBody [("resend_api_key", FText (resend_api_key config));
                             ("from_email", FText (from_email config))]).
Proof.
  split.
  - intros userData Hc.
    destruct (createUser_sends net userData w) as (sent & fd & Hw & Hb & ->).
    exists sent. split; [exact Hw|]. rewrite Hb.
    by destruct Hc as [-> | ->].
  - intros config Hd.
    destruct (updateEmailConfig_sends net config w) as (sent & fd & Hw & Hb & ->).
    exists sent. split; [exact Hw|]. rewrite Hb.
    by destruct Hd as [-> | ->].
Qed.

Lemma empty_optional_field_omitted_witness :
  exists sent : Config,
    wire (exec (updateEmailConfig okNet
                  {| resend_api_key := "re_1"; from_email := "gifts@example.org";
                     sending_domain := Some "" |}) (worldWithKey "k-123"))
      = [sent] /\
    body sent = FormBody [("resend_api_key", FText "re_1");
                          ("from_email", FText "gifts@example.org")].
Proof.
  apply (proj2 (empty_optional_field_omitted okNet (worldWithKey "k-123"))
           {| resend_api_key := "re_1"; from_email := "gifts@example.org";
              sending_domain := Some "" |}).
  right. reflexivity.
Defined.

(** ** The bare transport *)

(** C7, as worded: fails on the configured transport when the stored
    credential is the empty string. *)
Lemma header_on_every_api_request_fails : ~ header_on_every_api_request.
Proof.
  intros [H _].
  specialize (H okNet (InitiateGift JNull) (worldWithKey "")
                (apiConfig POST "/api/initiate-gift" (JsonBody JNull) noOptions)
                "" eq_refl eq_refl).
  vm_compute in H. discriminate H.
Qed.

(** C7, amended. The [X-API-Key] header is attached to every request issued
    through the configured transport while a non-empty credential is stored;
    it is never attached to the health check and user-creation requests,
    which go through the bare transport, even when a credential is stored. *)
Theorem header_only_on_configured_transport :
  (forall (net : Config -> Outcome) (c : ApiCall) (w : World) (sent : Config)
          (k : string),
      storedKey w = Some k -> k <> "" ->
      wire (exec (runApi net c) w) = wire w ++ [sent] ->
      apiKeyHeader sent = Some k) /\
  (forall (net : Config -> Outcome) (c : BareCall) (w : World) (sent : Config),
      wire (exec (runBare net c) w) = wire w ++ [sent] ->
      apiKeyHeader sent = None).
Proof.
  split.
  - intros net c w sent k Hk Hne Hw.
    destruct (runApi_spec net c w) as (sent' & Hhdr & Hrun).
    assert (sent = sent') as <-.
    { apply (sent_unique w _ _ _ Hw). unfold exec. rewrite Hrun.
      by destruct (net sent'). }
    rewrite Hhdr. unfold usableKey. rewrite Hk.
    apply truthyStr_true in Hne. by rewrite Hne.
  - intros net c w sent Hw.
    destruct (runBare_spec net c w) as (sent' & Hhdr & Hrun).
    assert (sent = sent') as <-.
    { apply (sent_unique w _ _ _ Hw). unfold exec. rewrite Hrun.
      by destruct (net sent'). }
    exact Hhdr.
Qed.

Lemma header_only_on_configured_transport_witness :
  (exists sent : Config,
     wire (exec (runApi okNet GetUserProfile) (worldWithKey "k-123")) = [sent] /\
     apiKeyHeader sent = Some "k-123") /\
  (exists sent : Config,
     wire (exec (runBare okNet HealthCheck) (worldWithKey "k-123")) = [sent] /\
     apiKeyHeader sent = None).
Proof.
  split; eexists; (split; [reflexivity|]).
  - refine (proj1 header_only_on_configured_transport okNet GetUserProfile
              (worldWithKey "k-123") _ "k-123" _ _ _);
      [reflexivity | discriminate | reflexivity].
  - refine (proj2 header_only_on_configured_transport okNet HealthCheck
              (worldWithKey "k-123") _ _); reflexivity.
Defined.

(** C9. A failure of [healthCheck] or of [createUser] never shows a
    notification, be it a timeout, a connection failure, a 401, a 403 or a
    5xx: these two go through the bare transport, on which no interceptor is
    installed.  The failure still reaches the caller as the normalized
    error. *)
Theorem bare_calls_never_notify (net : Config -> Outcome) (c : BareCall)
    (w : World) :
  toasts (exec (runBare net c) w) = toasts w /\
  (forall (sent : Config) (error : JsError),
      wire (exec (runBare net c) w) = wire w ++ [sent] ->
      net sent = Rejected error ->
      eval (runBare net c) w = Throw (normalizedError (surfacedMessage error))).
Proof.
  split.
  - destruct (runBare_spec net c w) as (sent & _ & Hrun).
    unfold exec. rewrite Hrun. destruct (net sent); simpl; by rewrite app_nil_r.
  - intros sent error Hw Hnet. unfold eval.
    by rewrite (runBare_failure net c w sent error Hw Hnet).
Qed.

Lemma bare_calls_never_notify_witness :
  noticeFor unauthorizedError = [MSG_UNAUTHORIZED] /\
  toasts (exec (runBare (failingNet unauthorizedError) HealthCheck) freshWorld)
    = [] /\
  eval (runBare (failingNet unauthorizedError) HealthCheck) freshWorld
    = Throw (normalizedError "Invalid API key").
Proof.
  split; [reflexivity|].
  destruct (bare_calls_never_notify (failingNet unauthorizedError) HealthCheck
              freshWorld) as [Htoasts Hraise].
  split; [exact Htoasts|].
  apply (Hraise (axiosConfig GET (API_BASE_URL +:+ "/") NoBody) unauthorizedError);
    reflexivity.
Defined.

(** ** Every call, whatever its outcome *)

(** The toasts a call shows for a failure: those of the response interceptor
    on [api], none on the bare [axios]. *)
Lemma run_cases (net : Config -> Outcome) (c : Call) (w : World) :
  exists sent : Config,
    run net c w =
      match net sent with
      | Resolved r => (Normal (data r), after w [] [sent])
      | Rejected e =>
          (Throw (normalizedError (surfacedMessage e)),
           after w (match c with
                    | ViaAxios _ => []
                    | ViaApi _ => noticeFor e
                    end) [sent])
      end.
Proof.
  destruct c as [c|c]; simpl.
  - destruct (runBare_spec net c w) as (sent & _ & Hrun). by exists sent.
  - destruct (runApi_spec net c w) as (sent & _ & Hrun). by exists sent.
Qed.


(** X1. A call that succeeds returns the decoded body of the response as it
    is, shows nothing and leaves the store alone. *)
Theorem successful_call_returns_data (net : Config -> Outcome) (c : Call)
    (w : World) (sent : Config) (r : AxiosResponse) :
  wire (exec (run net c) w) = wire w ++ [sent] ->
  net sent = Resolved r ->
  eval (run net c) w = Normal (data r) /\
  toasts (exec (run net c) w) = toasts w /\
  localStorage (exec (run net c) w) = localStorage w.
Proof.
  intros Hw Hnet.
  destruct (run_cases net c w) as (sent' & Hrun).
  assert (sent = sent') as <-.
  { apply (sent_unique w _ _ _ Hw). unfold exec. rewrite Hrun.
    by destruct (net sent'). }
  unfold eval, exec. rewrite Hrun, Hnet. simpl.
  by rewrite app_nil_r.
Qed.

Lemma successful_call_returns_data_witness :
  eval (run okNet (ViaApi (InitiateGift (JObj [("amount", JNum 25)]))))
    (worldWithKey "k-123") = Normal (JObj [("ok", JBool true)]) /\
  toasts (exec (run okNet (ViaApi (InitiateGift (JObj [("amount", JNum 25)]))))
            (worldWithKey "k-123")) = [] /\
  localStorage (exec (run okNet (ViaApi (InitiateGift (JObj [("amount", JNum 25)]))))
                  (worldWithKey "k-123")) = {[ API_KEY_ITEM := "k-123" ]}.
Proof.
  refine (successful_call_returns_data okNet
            (ViaApi (InitiateGift (JObj [("amount", JNum 25)])))
            (worldWithKey "k-123")
            (withApiKey (Some "k-123")
               (apiConfig POST "/api/initiate-gift"
                  (JsonBody (JObj [("amount", JNum 25)])) noOptions))
            {| status := 200; data := JObj [("ok", JBool true)] |}
            _ _); reflexivity.
Defined.


(** X3. Calls do not interfere: a second call made after a first one sends
    the very request it would have sent on its own, whatever the first call
    was and however it ended. *)
Theorem calls_do_not_interfere (net : Config -> Outcome) (c1 c2 : Call)
    (w : World) :
  exists s1 s2 : Config,
    wire (exec (run net c2) (exec (run net c1) w)) = wire w ++ [s1; s2] /\
    wire (exec (run net c1) w) = wire w ++ [s1] /\
    wire (exec (run net c2) w) = wire w ++ [s2].
Proof.
  assert (exists (s1 : Config) (n1 : list string),
             exec (run net c1) w = after w n1 [s1]) as (s1 & n1 & H1).
  { destruct (run_cases net c1 w) as (s1 & Hrun).
    unfold exec. rewrite Hrun. destruct (net s1); simpl; by eexists _, _. }
  assert (exists config : option string -> Config,
             forall w', wire (exec (run net c2) w')
                        = wire w' ++ [config (storedKey w')]) as (config & H2).
  { destruct c2 as [c|c]; simpl.
    - destruct (runBare_shape net c) as (cfg & _ & Hrun).
      exists (fun _ => cfg). intros w'. unfold exec. rewrite Hrun.
      rewrite axios_wrapper_run. by destruct (net cfg).
    - destruct (runApi_shape net c) as (cfg & h & _ & _ & Hrun).
      exists (fun k => withApiKey k cfg). intros w'. unfold exec.
      rewrite Hrun, api_wrapper_run. simpl. by destruct (net _). }
  exists s1, (config (storedKey w)).
  split; [|split].
  - rewrite H2, H1. unfold after, storedKey; simpl.
    by rewrite <- app_assoc.
  - by rewrite H1.
  - apply H2.
Qed.

(** ** Failures by status and by cause *)

Lemma noticeFor_status (error : JsError) (n : Z) :
  isStatusFailure error n ->
  noticeFor error =
    if Z.eqb n 401 then [MSG_UNAUTHORIZED]
    else if Z.eqb n 403 then [MSG_FORBIDDEN]
    else if Z.leb 500 n then [MSG_SERVER]
    else [].
Proof.
  intros [(r & Hr & Hn) [Ht Hnet]].
  unfold noticeFor, codeIs, statusIs, statusAtLeast. rewrite Hr, Hn.
  destruct (code error) as [c|]; [|reflexivity].
  destruct (String.eqb_spec c "ECONNABORTED") as [->|_]; [done|].
  by destruct (String.eqb_spec c "ERR_NETWORK") as [->|_].
Qed.

(** X4. A call through the configured transport that fails with a status
    shows the "unauthorized" notification for 401, the "forbidden" one for
    403, the "server error" one for every status from 500 up, with no upper
    bound, and nothing for any other status; it shows it once, whatever the
    endpoint. *)
Theorem status_failure_notification (net : Config -> Outcome) (c : ApiCall)
    (w : World) (sent : Config) (error : JsError) (n : Z) :
  wire (exec (runApi net c) w) = wire w ++ [sent] ->
  net sent = Rejected error ->
  isStatusFailure error n ->
  toasts (exec (runApi net c) w) =
    toasts w ++
      (if Z.eqb n 401 then [MSG_UNAUTHORIZED]
       else if Z.eqb n 403 then [MSG_FORBIDDEN]
       else if Z.leb 500 n then [MSG_SERVER]
       else []).
Proof.
  intros Hw Hnet Hs. unfold exec.
  rewrite (runApi_failure net c w sent error Hw Hnet). simpl.
  by rewrite (noticeFor_status error n Hs).
Qed.

Lemma status_failure_notification_witness :
  toasts (exec (runApi (failingNet (statusError 999 JNull)) GetUserProfile)
            freshWorld) = [MSG_SERVER].
Proof.
  refine (status_failure_notification (failingNet (statusError 999 JNull))
            GetUserProfile freshWorld
            (apiConfig GET "/api/user/profile" NoBody noOptions)
            (statusError 999 JNull) 999 _ _ _); try reflexivity.
  split; [by eexists | split; discriminate].
Defined.

(** X5. When the backend cannot be reached, a call through the configured
    transport shows exactly the "connection failed" notification and raises
    the normalized error with the transport's own message, or the fixed
    fallback text when that message is empty. *)
Theorem network_failure_notifies_once (net : Config -> Outcome) (c : ApiCall)
    (w : World) (sent : Config) (error : JsError) :
  wire (exec (runApi net c) w) = wire w ++ [sent] ->
  net sent = Rejected error ->
  isNetworkFailure error ->
  toasts (exec (runApi net c) w) = toasts w ++ [MSG_NETWORK] /\
  eval (runApi net c) w =
    Throw (normalizedError
             (if truthyStr (message error) then message error
              else MSG_UNEXPECTED)).
Proof.
  intros Hw Hnet [Hc Hr]. unfold exec, eval.
  rewrite (runApi_failure net c w sent error Hw Hnet). simpl.
  rewrite (surfacedMessage_no_response error Hr).
  unfold noticeFor, codeIs. by rewrite Hc.
Qed.

Lemma network_failure_notifies_once_witness :
  toasts (exec (runApi (failingNet networkError) DownloadExcelTemplate)
            freshWorld) = [MSG_NETWORK] /\
  eval (runApi (failingNet networkError) DownloadExcelTemplate) freshWorld
    = Throw (normalizedError "Network Error").
Proof.
  refine (network_failure_notifies_once (failingNet networkError)
            DownloadExcelTemplate freshWorld
            (apiConfig GET "/api/download-excel-template" NoBody
               {| opt_headers := ∅; opt_params := [];
                  opt_responseType := Some "blob" |})
            networkError _ _ _); [reflexivity | reflexivity | split; reflexivity].
Defined.

(** ** The credential, from the store to the request *)

(** X6. The credential is read at every request: right after [setApiKey]
    with a non-empty key, every call through the configured transport
    carries that key, whatever the store held before; right after
    [removeApiKey], none carries an [X-API-Key] header. *)
Theorem credential_change_takes_effect (net : Config -> Outcome) (c : ApiCall)
    (w : World) (k : string) :
  k <> "" ->
  (exists sent : Config,
     wire (exec (runApi net c) (exec (setApiKey k) w)) = wire w ++ [sent] /\
     apiKeyHeader sent = Some k) /\
  (exists sent : Config,
     wire (exec (runApi net c) (exec removeApiKey w)) = wire w ++ [sent] /\
     apiKeyHeader sent = None).
Proof.
  intros Hk. apply truthyStr_true in Hk. split.
  - destruct (runApi_spec net c (exec (setApiKey k) w)) as (sent & Hhdr & Hrun).
    exists sent. split.
    + unfold exec at 1. rewrite Hrun. by destruct (net sent).
    + rewrite Hhdr.
      unfold usableKey, storedKey, exec, setApiKey, setItem; simpl.
      by rewrite lookup_insert_eq, Hk.
  - destruct (runApi_spec net c (exec removeApiKey w)) as (sent & Hhdr & Hrun).
    exists sent. split.
    + unfold exec at 1. rewrite Hrun. by destruct (net sent).
    + rewrite Hhdr.
      unfold usableKey, storedKey, exec, removeApiKey, removeItem; simpl.
      by rewrite lookup_delete_eq.
Qed.

Lemma credential_change_takes_effect_witness :
  (exists sent : Config,
     wire (exec (runApi okNet GetEmailConfig)
             (exec (setApiKey "k-new") (worldWithKey "k-old"))) = [sent] /\
     apiKeyHeader sent = Some "k-new") /\
  (exists sent : Config,
     wire (exec (runApi okNet GetEmailConfig)
             (exec removeApiKey (worldWithKey "k-old"))) = [sent] /\
     apiKeyHeader sent = None).
Proof.
  apply (credential_change_takes_effect okNet GetEmailConfig
           (worldWithKey "k-old") "k-new").
  discriminate.
Defined.

(** X7. The request interceptor changes nothing but the [X-API-Key] header:
    method, URL, base URL, time limit, query parameters, body and response
    type are those of the call, every other header keeps its value, and the
    store, the toasts and the wire are untouched. *)
Theorem requestInterceptor_frame (config : Config) (w : World) :
  exists config' : Config,
    requestInterceptor config w = (Normal config', w) /\
    method config' = method config /\
    url config' = url config /\
    baseURL config' = baseURL config /\
    timeout config' = timeout config /\
    params config' = params config /\
    body config' = body config /\
    responseType config' = responseType config /\
    forall name : string,
      name <> API_KEY_HEADER ->
      (headers config' ≫= (.!! name)) = (headers config ≫= (.!! name)).
Proof.
  exists (withApiKey (storedKey w) config).
  split; [reflexivity|].
  unfold withApiKey.
  destruct (storedKey w) as [k|], (headers config) as [h|] eqn:Hh;
    try (rewrite ?Hh; by repeat split).
  destruct (truthyStr k); [|rewrite ?Hh; by repeat split].
  simpl. repeat split; try reflexivity.
  intros name Hname. by rewrite lookup_insert_ne.
Qed.

Lemma requestInterceptor_frame_witness :
  exists config' : Config,
    requestInterceptor
      (apiConfig POST "/api/upload-excel" NoBody
         {| opt_headers := {[ "Content-Type" := "multipart/form-data" ]};
            opt_params := []; opt_responseType := None |})
      (worldWithKey "k-123") = (Normal config', worldWithKey "k-123") /\
    (headers config' ≫= (.!! "Content-Type")) = Some "multipart/form-data".
Proof.
  destruct (requestInterceptor_frame
              (apiConfig POST "/api/upload-excel" NoBody
                 {| opt_headers := {[ "Content-Type" := "multipart/form-data" ]};
                    opt_params := []; opt_responseType := None |})
              (worldWithKey "k-123"))
    as (config' & Hrun & _ & _ & _ & _ & _ & _ & _ & Hhdr).
  exists config'. split; [exact Hrun|].
  rewrite (Hhdr "Content-Type"); [reflexivity | discriminate].
Defined.

(** X8. What the request interceptor does to the [X-API-Key] header of a
    configuration that has headers: a stored non-empty credential replaces
    whatever value the call had put there; with nothing stored, or the empty
    string, a value put there by the call is kept.  A configuration without
    headers is returned as it is, credential or not. *)
Theorem requestInterceptor_header (config : Config) (w : World) :
  (forall (h : gmap string string) (k : string),
     headers config = Some h -> storedKey w = Some k -> k <> "" ->
     exists config',
       eval (requestInterceptor config) w = Normal config' /\
       headers config' = Some (<[API_KEY_HEADER := k]> h)) /\
  (usableKey w = None ->
     eval (requestInterceptor config) w = Normal config) /\
  (headers config = None ->
     eval (requestInterceptor config) w = Normal config).
Proof.
  unfold eval, requestInterceptor, bind, getItem, ret, usableKey, storedKey;
    simpl.
  split; [|split].
  - intros h k Hh Hk Hne. apply truthyStr_true in Hne.
    eexists. split; [reflexivity|].
    unfold withApiKey. by rewrite Hk, Hh, Hne.
  - unfold withApiKey.
    destruct (localStorage w !! API_KEY_ITEM) as [k|]; [|done].
    destruct (truthyStr k); [done|]. by destruct (headers config).
  - intros Hh. unfold withApiKey. rewrite Hh.
    by destruct (localStorage w !! API_KEY_ITEM).
Qed.

Lemma requestInterceptor_header_witness :
  exists config',
    eval (requestInterceptor
            (apiConfig GET "/api/gifts" NoBody
               {| opt_headers := {[ API_KEY_HEADER := "from-the-call" ]};
                  opt_params := []; opt_responseType := None |}))
      (worldWithKey "k-123") = Normal config' /\
    apiKeyHeader config' = Some "k-123".
Proof.
  destruct (proj1 (requestInterceptor_header
                     (apiConfig GET "/api/gifts" NoBody
                        {| opt_headers := {[ API_KEY_HEADER := "from-the-call" ]};
                           opt_params := []; opt_responseType := None |})
                     (worldWithKey "k-123"))
              {[ API_KEY_HEADER := "from-the-call" ]} "k-123")
    as (config' & Heval & Hh); [reflexivity | reflexivity | discriminate |].
  exists config'. split; [exact Heval|].
  unfold apiKeyHeader. rewrite Hh. apply lookup_insert_eq.
Defined.

(** ** The credential store, continued *)

(** X9. The accessors touch one item only: [setApiKey] and [removeApiKey]
    leave every other item of the store, the toasts and the wire as they
    were, and [getApiKey] changes nothing at all. *)
Theorem credential_accessors_frame (s : string) (w : World) :
  (forall item : string,
     item <> API_KEY_ITEM ->
     localStorage (exec (setApiKey s) w) !! item = localStorage w !! item /\
     localStorage (exec removeApiKey w) !! item = localStorage w !! item) /\
  toasts (exec (setApiKey s) w) = toasts w /\
  wire (exec (setApiKey s) w) = wire w /\
  toasts (exec removeApiKey w) = toasts w /\
  wire (exec removeApiKey w) = wire w /\
  exec getApiKey w = w.
Proof.
  unfold exec, setApiKey, removeApiKey, getApiKey, setItem, removeItem, getItem;
    simpl.
  repeat split; try reflexivity.
  - by rewrite lookup_insert_ne.
  - by rewrite lookup_delete_ne.
Qed.

Lemma credential_accessors_frame_witness :
  localStorage (exec (setApiKey "k-123")
                  {| localStorage := {[ "theme" := "dark" ]};
                     toasts := []; wire := [] |}) !! "theme" = Some "dark".
Proof.
  refine (proj1 (proj1 (credential_accessors_frame "k-123"
                          {| localStorage := {[ "theme" := "dark" ]};
                             toasts := []; wire := [] |}) "theme" _)).
  discriminate.
Defined.

(** X10. The last write wins: after two [setApiKey] the second key is read,
    and a [removeApiKey] after a [setApiKey] leaves nothing to read.
    Removing a credential that is not there, and storing again the one that
    is stored, leave the store as it was. *)
Theorem credential_last_write_wins (a b : string) (w : World) :
  eval getApiKey (exec (setApiKey b) (exec (setApiKey a) w)) = Normal (Some b) /\
  eval getApiKey (exec removeApiKey (exec (setApiKey a) w)) = Normal None /\
  (storedKey w = None -> exec removeApiKey w = w) /\
  (storedKey w = Some a -> exec (setApiKey a) w = w).
Proof.
  unfold eval, exec, getApiKey, setApiKey, removeApiKey, getItem, setItem,
    removeItem, storedKey; simpl.
  split; [by rewrite lookup_insert_eq|].
  split; [by rewrite lookup_delete_eq|].
  split; intros H; destruct w as [st ts wr]; simpl in *; f_equal.
  - by apply delete_id.
  - by apply insert_id.
Qed.

Lemma credential_last_write_wins_witness :
  exec removeApiKey freshWorld = freshWorld /\
  exec (setApiKey "k-123") (worldWithKey "k-123") = worldWithKey "k-123".
Proof.
  split.
  - apply (proj1 (proj2 (proj2 (credential_last_write_wins "" "" freshWorld)))).
    reflexivity.
  - apply (proj2 (proj2 (proj2 (credential_last_write_wins "k-123" ""
                                  (worldWithKey "k-123"))))).
    reflexivity.
Defined.

(** ** What the wrappers send *)

(** The request interceptor leaves everything but the headers alone. *)
Lemma withApiKey_fields (apiKey : option string) (config : Config) :
  method (withApiKey apiKey config) = method config /\
  url (withApiKey apiKey config) = url config /\
  baseURL (withApiKey apiKey config) = baseURL config /\
  timeout (withApiKey apiKey config) = timeout config /\
  params (withApiKey apiKey config) = params config /\
  responseType (withApiKey apiKey config) = responseType config.
Proof.
  unfold withApiKey.
  destruct apiKey as [k|], (headers config); try by repeat split.
  by destruct (truthyStr k).
Qed.

(** The one request of a wrapper on [api], from the configuration the
    wrapper passes. *)
Lemma api_wrapper_wire (net : Config -> Outcome) (config : Config) (w : World) :
  wire (exec (tryCatch (let! response := api_request net config in
                        ret (handleResponse response)) handleError) w)
    = wire w ++ [withApiKey (storedKey w) config].
Proof.
  unfold exec. rewrite api_wrapper_run. simpl. by destruct (net _).
Qed.

(** In an object that binds each name once, reading a name gives the value
    bound to it. *)
Lemma lookupProp_NoDup (props : list (string * JsValue)) (k : string)
    (v : JsValue) :
  NoDup (map fst props) -> In (k, v) props -> lookupProp props k = v.
Proof.
  induction props as [|[k' v'] props IH]; simpl; [done|].
  intros Hnd [Heq | Hin].
  - injection Heq as -> ->. by rewrite String.eqb_refl.
  - apply NoDup_cons in Hnd as [Hnotin Hnd].
    destruct (String.eqb_spec k' k) as [->|_]; [|by apply IH].
    destruct Hnotin. apply list_elem_of_In.
    change k with (fst (k, v)). by apply in_map.
Qed.

(** The loop of [testEmailConfig] over properties whose values are read
    back as they are. *)
Lemma testEmailConfig_loop (testData l : list (string * JsValue)) (fd : FormData) :
  (forall p, In p l -> lookupProp testData (fst p) = snd p) ->
  fold_left
    (fun fd key =>
       match lookupProp testData key with
       | JNull | JUndefined => fd
       | v => formData_append fd key (FText (toString v))
       end)
    (map fst l) fd
  = fd ++ map textEntry (List.filter (fun p => negb (isNullish (snd p))) l).
Proof.
  revert fd. induction l as [|[k v] l IH]; intros fd Hread; simpl.
  - by rewrite app_nil_r.
  - rewrite IH by (intros p Hp; apply Hread; by right).
    pose proof (Hread (k, v) (or_introl eq_refl)) as Hk. simpl in Hk.
    rewrite Hk.
    destruct v; simpl; try reflexivity;
      unfold formData_append, textEntry; simpl; by rewrite <- app_assoc.
Qed.

(** X11. [testEmailConfig] sends, as text and in the order of the keys,
    exactly the properties of its argument that are neither [null] nor
    [undefined]; unlike the two forms with an optional field, it keeps the
    empty string, zero and [false]. *)
Theorem testEmailConfig_form (net : Config -> Outcome)
    (testData : list (string * JsValue)) (w : World) :
  NoDup (map fst testData) ->
  exists sent : Config,
    wire (exec (testEmailConfig net testData) w) = wire w ++ [sent] /\
    body sent =
      FormBody (map textEntry
                  (List.filter (fun p => negb (isNullish (snd p))) testData)).
Proof.
  intros Hnd. eexists. split.
  - unfold testEmailConfig, api_post. cbv zeta. apply api_wrapper_wire.
  - rewrite body_withApiKey. simpl. f_equal.
    rewrite testEmailConfig_loop; [reflexivity|].
    intros [k v] Hin. by apply lookupProp_NoDup.
Qed.

Lemma testEmailConfig_form_witness :
  exists sent : Config,
    wire (exec (testEmailConfig okNet sampleTestData) freshWorld) = [sent] /\
    body sent = FormBody [("to", FText "ann@example.org"); ("subject", FText "");
                          ("retries", FText "0"); ("html", FText "false")].
Proof.
  apply (testEmailConfig_form okNet sampleTestData freshWorld).
  apply (bool_decide_unpack _). vm_compute. exact I.
Defined.

(** X12. [uploadExcelFile] sends the file and then the campaign id as the
    two fields [file] and [campaign_id]; its [Content-Type] header survives
    the request interceptor, which adds the credential beside it. *)
Theorem uploadExcelFile_request (net : Config -> Outcome) (file : File)
    (campaignId : string) (w : World) :
  exists sent : Config,
    wire (exec (uploadExcelFile net file campaignId) w) = wire w ++ [sent] /\
    body sent = FormBody [("file", FFile file); ("campaign_id", FText campaignId)] /\
    (headers sent ≫= (.!! "Content-Type")) = Some "multipart/form-data" /\
    apiKeyHeader sent = usableKey w.
Proof.
  eexists. split; [|split; [|split]].
  - unfold uploadExcelFile, api_post. cbv zeta. apply api_wrapper_wire.
  - by rewrite body_withApiKey.
  - unfold withApiKey; simpl.
    destruct (storedKey w) as [k|]; [destruct (truthyStr k)|]; simpl;
      by rewrite ?lookup_insert_ne, lookup_singleton_eq.
  - by rewrite (apiKeyHeader_withApiKey _ _
                  {[ "Content-Type" := "multipart/form-data" ]}).
Qed.


(** X14. [getAllGifts] asks for the limit it is given, zero included, as the
    one query parameter [limit], and for 1000 when the argument is left
    out. *)
Theorem getAllGifts_limit (net : Config -> Outcome) (limit : option Z)
    (w : World) :
  exists sent : Config,
    wire (exec (getAllGifts net limit) w) = wire w ++ [sent] /\
    params sent = [("limit", JNum (default 1000 limit))] /\
    body sent = NoBody.
Proof.
  eexists. split; [|split].
  - unfold getAllGifts, api_get. cbv zeta. apply api_wrapper_wire.
  - by rewrite (proj1 (proj2 (proj2 (proj2 (proj2 (withApiKey_fields _ _)))))).
  - by rewrite body_withApiKey.
Qed.

(** The one request of a wrapper on the bare [axios]. *)
Lemma axios_wrapper_wire (net : Config -> Outcome) (config : Config) (w : World) :
  wire (exec (tryCatch (let! response := send net config in
                        ret (handleResponse response)) handleError) w)
    = wire w ++ [config].
Proof.
  unfold exec. rewrite axios_wrapper_run. by destruct (net _).
Qed.

(** X15. Each wrapper sends its one request with the method and URL of its
    endpoint: the wrappers on [api] a path under the base URL, with the 30
    second limit, the two on the bare [axios] the whole address and no base
    URL.  Only [downloadExcelTemplate] asks for a blob.  The stored
    credential changes none of this. *)
Theorem wrapper_routes (net : Config -> Outcome) (c : Call) (w : World) :
  exists sent : Config,
    wire (exec (run net c) w) = wire w ++ [sent] /\
    (method sent, url sent) = route c /\
    baseURL sent = match c with
                   | ViaAxios _ => None
                   | ViaApi _ => Some API_BASE_URL
                   end /\
    match c with
    | ViaAxios _ => True
    | ViaApi _ => timeout sent = 30000
    end /\
    responseType sent = match c with
                        | ViaApi DownloadExcelTemplate => Some "blob"
                        | _ => None
                        end.
Proof.
  destruct c as [c|c].
  - destruct c; eexists;
      (split; [simpl; unfold healthCheck, createUser, axios_get, axios_post;
               cbv zeta; apply axios_wrapper_wire
              | by repeat split]).
  - destruct c; eexists;
      (split;
       [simpl;
        unfold getUserProfile, initiateGift, bulkInitiateGifts, getAllGifts,
          getCampaignGifts, updateGiftStatus, getGiftStatus, verifyGift,
          downloadExcelTemplate, uploadExcelFile, getEmailConfig,
          updateEmailConfig, testEmailConfig, api_get, api_post, api_put;
        cbv zeta; apply api_wrapper_wire
       | match goal with
         | |- context [withApiKey ?k ?cfg] =>
             destruct (withApiKey_fields k cfg)
               as (Hm & Hu & Hb & Ht & _ & Hr);
             rewrite Hm, Hu, Hb, Ht, Hr
         end; by repeat split]).
Qed.

(** ** The normalized error, continued *)

Lemma surfacedMessage_not_empty (error : JsError) :
  textOrMissing (responseField error "detail") ->
  textOrMissing (responseField error "message") ->
  surfacedMessage error <> "".
Proof.
  unfold surfacedMessage, messageCandidates. simpl.
  intros [-> | [-> | [d ->]]] [-> | [-> | [m ->]]]; simpl;
    try destruct d; try destruct m; simpl; try discriminate;
    destruct (message error); simpl; discriminate.
Qed.

(** X16. When the server's [detail] and [message] are strings, [null] or
    missing, the error a wrapper raises never has an empty message: empty
    strings are passed over, and the fixed text closes the chain. *)
Theorem raised_message_not_empty (net : Config -> Outcome) (c : Call)
    (w : World) (sent : Config) (error : JsError) :
  wire (exec (run net c) w) = wire w ++ [sent] ->
  net sent = Rejected error ->
  textOrMissing (responseField error "detail") ->
  textOrMissing (responseField error "message") ->
  exists msg : string,
    eval (run net c) w = Throw (normalizedError msg) /\ msg <> "".
Proof.
  intros Hw Hnet Hd Hm.
  destruct (run_cases net c w) as (sent' & Hrun).
  assert (sent = sent') as <-.
  { apply (sent_unique w _ _ _ Hw). unfold exec. rewrite Hrun.
    by destruct (net sent'). }
  exists (surfacedMessage error). split.
  - unfold eval. by rewrite Hrun, Hnet.
  - by apply surfacedMessage_not_empty.
Qed.

Lemma raised_message_not_empty_witness :
  exists msg : string,
    eval (run (failingNet emptyDetailError) (ViaAxios HealthCheck)) freshWorld
      = Throw (normalizedError msg) /\ msg <> "".
Proof.
  refine (raised_message_not_empty (failingNet emptyDetailError)
            (ViaAxios HealthCheck) freshWorld
            (axiosConfig GET (API_BASE_URL +:+ "/") NoBody) emptyDetailError
            _ _ _ _); try reflexivity.
  - right; right. by eexists.
  - right; right. by eexists.
Defined.




(** The error raised by a call whose request is rejected. *)
Lemma run_failure_eval (net : Config -> Outcome) (c : Call) (w : World)
    (sent : Config) (error : JsError) :
  wire (exec (run net c) w) = wire w ++ [sent] ->
  net sent = Rejected error ->
  eval (run net c) w = Throw (normalizedError (surfacedMessage error)).
Proof.
  intros Hw Hnet.
  destruct (run_cases net c w) as (sent' & Hrun).
  assert (sent = sent') as <-.
  { apply (sent_unique w _ _ _ Hw). unfold exec. rewrite Hrun.
    by destruct (net sent'). }
  unfold eval. by rewrite Hrun, Hnet.
Qed.

(** X18. When the answer of the server is not a JSON object (an error page,
    a blob, nothing at all), there is no [detail] and no [message] to read:
    the wrapper raises the transport error's own message, or the fixed text
    when that is empty. *)
Theorem non_object_answer_uses_own_message (net : Config -> Outcome) (c : Call)
    (w : World) (sent : Config) (error : JsError) (r : AxiosResponse) :
  wire (exec (run net c) w) = wire w ++ [sent] ->
  net sent = Rejected error ->
  response error = Some r ->
  (forall props, data r <> JObj props) ->
  eval (run net c) w =
    Throw (normalizedError
             (if truthyStr (message error) then message error
              else MSG_UNEXPECTED)).
Proof.
  intros Hw Hnet Hr Hdata.
  rewrite (run_failure_eval net c w sent error Hw Hnet).
  unfold surfacedMessage, messageCandidates, responseField. rewrite Hr.
  destruct (data r) as [| | | | | |props]; simpl;
    try (by destruct (truthyStr (message error))).
  by destruct (Hdata props).
Qed.

Lemma non_object_answer_uses_own_message_witness :
  eval (run (failingNet (statusError 502 (JStr "<html>Bad Gateway</html>")))
          (ViaApi GetUserProfile)) freshWorld
    = Throw (normalizedError "Request failed with status code 502").
Proof.
  refine (non_object_answer_uses_own_message
            (failingNet (statusError 502 (JStr "<html>Bad Gateway</html>")))
            (ViaApi GetUserProfile) freshWorld
            (apiConfig GET "/api/user/profile" NoBody noOptions)
            (statusError 502 (JStr "<html>Bad Gateway</html>"))
            {| status := 502; data := JStr "<html>Bad Gateway</html>" |}
            _ _ _ _); try reflexivity.
  intros props. discriminate.
Defined.

(** An array of objects prints as that many [[object Object]], separated by
    commas. *)
Lemma toString_array_of_objects (objs : list (list (string * JsValue))) :
  toString (JArr (map JObj objs))
    = String.concat "," (map (fun _ => "[object Object]") objs).
Proof.
  simpl. induction objs as [|o objs IH]; simpl; [reflexivity|].
  destruct objs as [|o' objs]; [reflexivity|].
  simpl in *. by rewrite IH.
Qed.

(** A truthy [detail] is the message, in its string form. *)
Lemma surfacedMessage_detail (error : JsError) (d : JsValue) :
  responseField error "detail" = d -> truthy d = true ->
  surfacedMessage error = toString d.
Proof.
  intros Hd Ht. unfold surfacedMessage, messageCandidates.
  rewrite Hd. simpl. by rewrite Ht.
Qed.

(** X19. A structured [detail] is flattened, not read: for an object the
    raised message is [[object Object]], for a list of objects (a list of
    validation errors) as many [[object Object]] separated by commas, and for
    the empty list the empty string; the server's [message] and the
    transport's own message are not consulted. *)
Theorem structured_detail_is_flattened (net : Config -> Outcome) (c : Call)
    (w : World) (sent : Config) (error : JsError) :
  wire (exec (run net c) w) = wire w ++ [sent] ->
  net sent = Rejected error ->
  (forall props,
     responseField error "detail" = JObj props ->
     eval (run net c) w = Throw (normalizedError "[object Object]")) /\
  (forall objs,
     responseField error "detail" = JArr (map JObj objs) ->
     eval (run net c) w =
       Throw (normalizedError
                (String.concat "," (map (fun _ => "[object Object]") objs)))).
Proof.
  intros Hw Hnet.
  rewrite (run_failure_eval net c w sent error Hw Hnet).
  split.
  - intros props Hd.
    by rewrite (surfacedMessage_detail error (JObj props) Hd eq_refl).
  - intros objs Hd.
    rewrite (surfacedMessage_detail error (JArr (map JObj objs)) Hd eq_refl).
    by rewrite toString_array_of_objects.
Qed.

Lemma structured_detail_is_flattened_witness :
  eval (run (failingNet
               (statusError 422
                  (JObj [("detail",
                          JArr [JObj [("msg", JStr "field required")];
                                JObj [("msg", JStr "value is not a valid email")]]);
                         ("message", JStr "Validation failed")])))
          (ViaAxios (CreateUser {| email := ""; full_name := "";
                                   company_name := None |}))) freshWorld
    = Throw (normalizedError "[object Object],[object Object]").
Proof.
  refine (proj2 (structured_detail_is_flattened
            (failingNet
               (statusError 422
                  (JObj [("detail",
                          JArr [JObj [("msg", JStr "field required")];
                                JObj [("msg", JStr "value is not a valid email")]]);
                         ("message", JStr "Validation failed")])))
            (ViaAxios (CreateUser {| email := ""; full_name := "";
                                     company_name := None |}))
            freshWorld
            (axiosConfig POST (API_BASE_URL +:+ "/api/users")
               (FormBody [("email", FText ""); ("full_name", FText "")]))
            _ _ _)
            [[("msg", JStr "field required")];
             [("msg", JStr "value is not a valid email")]] _); reflexivity.
Defined.
